(** * Jabba: session store and middleware dispatch

    A shallow embedding of [src/Session.model.ts] and [src/Chatbot.ts].

    Promises are modelled by a state-and-rejection monad: a computation takes
    the state of the world and returns the new state together with either the
    reason of the rejection or the value the promise resolves with.  Every
    [then] of the source is a bind; the world keeps changing on the rejected
    path as well, since nothing in JavaScript rolls a mutation back. *)

From Stdlib Require Import ZArith Lia.
From stdpp Require Import base option list strings.

(** ** JavaScript values used by the two files *)

Module Js.

(** The value of a numeric property: never assigned, a number, or [NaN]. *)
Inductive value : Type :=
| undefined
| number (z : Z)
| NaN.

Definition ToNumber (v : value) : value :=
  match v with
  | undefined => NaN
  | number z => number z
  | NaN => NaN
  end.

(** [x++] stores [ToNumber(x) + 1] back into [x]. *)
Definition postfix_incr (v : value) : value :=
  match ToNumber v with
  | number z => number (z + 1)
  | _ => NaN
  end.

Definition Math_min (a b : Z) : Z := Z.min a b.

(** A string-typed property that may be missing; only a non-empty string
    is truthy. *)
Definition truthy (s : option string) : bool :=
  match s with
  | Some s => negb (String.eqb s "")
  | None => false
  end.

(** What a promise is rejected with, or what a [throw] carries. *)
Inductive reason : Type :=
| Str (s : string)            (* a plain string, as in [Promise.reject(`...`)] *)
| BackendError (s : string)   (* raised by the document store driver *)
| TypeError (s : string)      (* property access on [undefined] or [null] *)
| SdkError (s : string)       (* raised by the NLU SDK *)
| UserError (s : string).     (* raised by a middleware *)

End Js.

(** ** The promise monad *)

Definition Promise (S A : Type) : Type := S -> S * (Js.reason + A).

Definition resolve {S A} (a : A) : Promise S A := fun s => (s, inr a).
Definition reject {S A} (e : Js.reason) : Promise S A := fun s => (s, inl e).

Definition then_ {S A B} (p : Promise S A) (f : A -> Promise S B) : Promise S B :=
  fun s =>
    match p s with
    | (s', inl e) => (s', inl e)
    | (s', inr a) => f a s'
    end.

Declare Scope promise_scope.
Delimit Scope promise_scope with promise.
Notation "x <~ p ;; q" := (then_ p (fun x => q))
  (at level 100, p at next level, right associativity) : promise_scope.
Notation "p ;;; q" := (then_ p (fun _ => q))
  (at level 100, right associativity) : promise_scope.

(** ** Session.model.ts *)

(** Dates are milliseconds on the host clock. *)
Record ISessionModel : Type := {
  conversationId : string;
  consecutiveNotUnderstand : Z;
  createdAt : option Z;
  updatedAt : option Z;
}.

(** A mongoose document: the identifier given by the store and the raw
    object [_doc] that carries the schema paths. *)
Record ISessionDocument : Type := {
  _id : nat;
  _doc : ISessionModel;
}.

Inductive StoreOp : Type :=
| OpFindOne (cid : string)
| OpCreate (cid : string)
| OpSave (id : nat).

(** The collection behind [SessionModel], the host clock, the failures the
    backend is going to answer with (one entry per request, [None] for a
    request that goes through; no entry left means no failure) and the log of
    the requests received so far. *)
Record World : Type := {
  records : list ISessionDocument;
  clock : Z;
  faults : list (option string);
  oplog : list StoreOp;
}.

Definition set_records (r : list ISessionDocument) (w : World) : World :=
  {| records := r; clock := clock w; faults := faults w; oplog := oplog w |}.

Definition set_clock (t : Z) (w : World) : World :=
  {| records := records w; clock := t; faults := faults w; oplog := oplog w |}.

(** One request to the backend. *)
Definition request (op : StoreOp) : Promise World unit :=
  fun w =>
    let logged := oplog w ++ [op] in
    match faults w with
    | Some e :: fs =>
        ({| records := records w; clock := clock w; faults := fs; oplog := logged |},
         inl (Js.BackendError e))
    | None :: fs =>
        ({| records := records w; clock := clock w; faults := fs; oplog := logged |},
         inr tt)
    | [] =>
        ({| records := records w; clock := clock w; faults := []; oplog := logged |},
         inr tt)
    end.

Definition new_Date : Promise World Z := fun w => (w, inr (clock w)).

(** The receiver a function body sees as [this]. *)
Inductive Receiver : Type :=
| ModuleThis                       (* [this] of the module body, the exports
                                      object: it has no [_doc] *)
| DocumentThis (d : ISessionDocument).

(** The body of the [pre('save')] hook, for a given [this]. *)
Definition pre_save (this : Receiver) (now : Z) : Receiver :=
  match this with
  | DocumentThis d =>
      let doc := _doc d in
      let doc1 :=
        match createdAt doc with
        | None =>
            {| conversationId := conversationId doc;
               consecutiveNotUnderstand := consecutiveNotUnderstand doc;
               createdAt := Some now;
               updatedAt := updatedAt doc |}
        | Some _ => doc
        end in
      DocumentThis
        {| _id := _id d;
           _doc := {| conversationId := conversationId doc1;
                      consecutiveNotUnderstand := consecutiveNotUnderstand doc1;
                      createdAt := createdAt doc1;
                      updatedAt := Some now |} |}
  | ModuleThis => ModuleThis
  end.

(** The hook is written as an arrow function: whatever receiver the caller
    supplies, its [this] is the one of the scope the arrow was written in. *)
Definition arrow_this (lexical supplied : Receiver) : Receiver := lexical.

(** mongoose runs the hook with the document as receiver before the write. *)
Definition run_pre_save (d : ISessionDocument) (now : Z) : ISessionDocument :=
  match pre_save (arrow_this ModuleThis (DocumentThis d)) now with
  | DocumentThis d' => d'
  | ModuleThis => d
  end.

Definition has_conversationId (cid : string) (d : ISessionDocument) : Prop :=
  conversationId (_doc d) = cid.

#[global] Instance has_conversationId_dec cid d : Decision (has_conversationId cid d) :=
  decide (conversationId (_doc d) = cid).

(** [SessionModel.findOne({ conversationId })]: the first record in store
    order, [None] when no record matches. *)
Definition SessionModel_findOne (cid : string) : Promise World (option ISessionDocument) :=
  (request (OpFindOne cid) ;;;
   fun w => (w, inr (snd <$> list_find (has_conversationId cid) (records w))))%promise.

(** [SessionModel.create(instance)]: a new document, saved (hooks included)
    and appended to the collection.  No path of the schema is unique. *)
Definition SessionModel_create (instance : ISessionModel) : Promise World ISessionDocument :=
  (now <~ new_Date ;;
   request (OpCreate (conversationId instance)) ;;;
   fun w =>
     let d := run_pre_save {| _id := length (records w); _doc := instance |} now in
     (set_records (records w ++ [d]) w, inr d))%promise.

Definition write_back (d : ISessionDocument) (r : ISessionDocument) : ISessionDocument :=
  if decide (_id r = _id d) then d else r.

(** [document.save()] of a document that came from the store: the hooks run,
    then the record with the same [_id] receives the in-memory paths.  A
    document whose record is gone updates nothing. *)
Definition document_save (d : ISessionDocument) : Promise World ISessionDocument :=
  (now <~ new_Date ;;
   let d' := run_pre_save d now in
   request (OpSave (_id d')) ;;;
   fun w => (set_records (write_back d' <$> records w) w, inr d'))%promise.

(** The [Session] class: the wrapped document and the two properties that
    [Chatbot.onMessage] sets on the instance itself. *)
Record Session : Type := {
  document : ISessionDocument;
  _previousNotUnderstand : Js.value;
  messageCount : Js.value;
}.

Definition new_Session (model : ISessionDocument) : Session :=
  {| document := model;
     _previousNotUnderstand := Js.undefined;
     messageCount := Js.undefined |}.

Definition get_conversationId (s : Session) : string :=
  conversationId (_doc (document s)).

Definition get_consecutiveNotUnderstand (s : Session) : Z :=
  consecutiveNotUnderstand (_doc (document s)).

Definition set_consecutiveNotUnderstand (n : Z) (s : Session) : Session :=
  let d := document s in
  {| document :=
       {| _id := _id d;
          _doc := {| conversationId := conversationId (_doc d);
                     consecutiveNotUnderstand := Js.Math_min n 2;
                     createdAt := createdAt (_doc d);
                     updatedAt := updatedAt (_doc d) |} |};
     _previousNotUnderstand := _previousNotUnderstand s;
     messageCount := messageCount s |}.

Definition set_previousNotUnderstand (v : Js.value) (s : Session) : Session :=
  {| document := document s;
     _previousNotUnderstand := v;
     messageCount := messageCount s |}.

Definition set_messageCount (v : Js.value) (s : Session) : Session :=
  {| document := document s;
     _previousNotUnderstand := _previousNotUnderstand s;
     messageCount := v |}.

Definition set_document (d : ISessionDocument) (s : Session) : Session :=
  {| document := d;
     _previousNotUnderstand := _previousNotUnderstand s;
     messageCount := messageCount s |}.

Definition Session_create (cid : string) : Promise World Session :=
  (c <~ new_Date ;;
   u <~ new_Date ;;
   res <~ SessionModel_create
            {| conversationId := cid;
               consecutiveNotUnderstand := 0;
               createdAt := Some c;
               updatedAt := Some u |} ;;
   resolve (new_Session res))%promise.

Definition not_found_message (cid : string) : string :=
  "Sersation with id " +:+ cid +:+ " not found.".

Definition Session_findById (cid : string) : Promise World Session :=
  (res <~ SessionModel_findOne cid ;;
   match res with
   | None => reject (Js.Str (not_found_message cid))
   | Some d => resolve (new_Session d)
   end)%promise.

Definition Session_findOrCreateById (cid : string) : Promise World Session :=
  (res <~ SessionModel_findOne cid ;;
   match res with
   | None => Session_create cid
   | Some d => resolve (new_Session d)
   end)%promise.

Definition Session_save (s : Session) : Promise World Session :=
  (d <~ document_save (document s) ;;
   resolve (set_document d s))%promise.



(** ** Chatbot.ts *)

Inductive Language : Type := fr | en.

Record IMongoConfig : Type := {
  hostname : string;
  database : string;
  username : option string;
  password : option string;
  ssl : option bool;
  replicaSetName : option string;
  port : option string;
  enabled : option bool;
}.

Record IChatbotConfig : Type := {
  requestToken : string;
  connectToken : option string;
  language : Language;
  mongo : option IMongoConfig;
}.

(** A client of the NLU service is known by its token and language. *)
Record Client : Type := {
  token : string;
  client_language : Language;
}.

Record IRecastSdk : Type := {
  request_client : Client;
  connect_client : Client;
}.

Record Message : Type := {
  message_conversationId : string;
  content : string;
}.

Record IChatbotContext : Type := {
  ctx_recastSdk : IRecastSdk;
  ctx_config : IChatbotConfig;
  ctx_message : Message;
  ctx_session : option Session;
}.

Definition enable (m : IMongoConfig) : IMongoConfig :=
  {| hostname := hostname m; database := database m;
     username := username m; password := password m;
     ssl := ssl m; replicaSetName := replicaSetName m;
     port := port m; enabled := Some true |}.

Section Dispatcher.

(** Whatever a middleware keeps outside of the context (counters, replies
    sent, ...). *)
Variable U : Type.

(** A middleware is code of the bot's author.  It is represented by what it
    does with its two arguments, [ctx] and [next], in sequence (every
    promise awaited):
    - [MwNext k]: [next()] is invoked, and [k] goes on with what the promise
      settled with ([None]: resolved), so a rejection may be handed on with
      [MwReject] or swallowed;
    - [MwRead k]: the context is read;
    - [MwSetNotUnderstand n k]: [ctx.session.consecutiveNotUnderstand = n];
    - [MwSave k]: [ctx.session.save()];
    - [MwUser f k]: an effect on the author's own state. *)
Inductive ChatbotMiddleware : Type :=
| MwResolve
| MwReject (e : Js.reason)
| MwNext (k : option Js.reason -> ChatbotMiddleware)
| MwRead (k : IChatbotContext -> ChatbotMiddleware)
| MwSetNotUnderstand (n : Z) (k : ChatbotMiddleware)
| MwSave (k : option Js.reason -> ChatbotMiddleware)
| MwUser (f : U -> U) (k : ChatbotMiddleware).

Record Chatbot : Type := {
  config : IChatbotConfig;
  recastSdk : IRecastSdk;
  middlewarePipeline : list ChatbotMiddleware;
}.

Definition new_Chatbot (cfg : IChatbotConfig) : Chatbot :=
  {| config :=
       {| requestToken := requestToken cfg;
          connectToken := connectToken cfg;
          language := language cfg;
          mongo := enable <$> mongo cfg |};
     recastSdk :=
       if Js.truthy (connectToken cfg)
       then {| connect_client := {| token := default "" (connectToken cfg);
                                    client_language := language cfg |};
               request_client := {| token := requestToken cfg;
                                    client_language := language cfg |} |}
       else {| connect_client := {| token := requestToken cfg;
                                    client_language := language cfg |};
               request_client := {| token := requestToken cfg;
                                    client_language := language cfg |} |};
     middlewarePipeline := [] |}.

Definition use (middleware : ChatbotMiddleware) (bot : Chatbot) : Chatbot :=
  {| config := config bot;
     recastSdk := recastSdk bot;
     middlewarePipeline := middlewarePipeline bot ++ [middleware] |}.

(** [connectToMongo], the connection itself left to the driver. *)
Definition connectToMongo (cfg : IMongoConfig) (bot : Chatbot) : Chatbot :=
  {| config :=
       {| requestToken := requestToken (config bot);
          connectToken := connectToken (config bot);
          language := language (config bot);
          mongo := Some (enable cfg) |};
     recastSdk := recastSdk bot;
     middlewarePipeline := middlewarePipeline bot |}.

Definition isMongoEnabled (bot : Chatbot) : bool :=
  match mongo (config bot) with
  | Some m =>
      match enabled m with
      | Some true => true
      | _ => false
      end
  | None => false
  end.

(** The state of one turn: the world, the context shared by the whole
    chain, the index captured by [execNextMiddleware], the author's state,
    and the positions of the pipeline started so far, in order (kept for
    the statements only: nothing reads it). *)
Record Turn : Type := {
  world : World;
  ctx : IChatbotContext;
  currentMiddlewareIndex : nat;
  user : U;
  ran : list nat;
}.

Definition with_world (w : World) (t : Turn) : Turn :=
  {| world := w; ctx := ctx t;
     currentMiddlewareIndex := currentMiddlewareIndex t;
     user := user t; ran := ran t |}.

Definition with_session (s : option Session) (t : Turn) : Turn :=
  {| world := world t;
     ctx := {| ctx_recastSdk := ctx_recastSdk (ctx t);
               ctx_config := ctx_config (ctx t);
               ctx_message := ctx_message (ctx t);
               ctx_session := s |};
     currentMiddlewareIndex := currentMiddlewareIndex t;
     user := user t; ran := ran t |}.

Definition with_user (u : U) (t : Turn) : Turn :=
  {| world := world t; ctx := ctx t;
     currentMiddlewareIndex := currentMiddlewareIndex t;
     user := u; ran := ran t |}.

(** [currentMiddlewareIndex++], the position being noted. *)
Definition started (t : Turn) : Turn :=
  {| world := world t; ctx := ctx t;
     currentMiddlewareIndex := S (currentMiddlewareIndex t);
     user := user t;
     ran := ran t ++ [currentMiddlewareIndex t] |}.

(** How a promise of the turn settles: [None] when it resolves.  The outer
    [option] of the functions below is [None] when the recursion budget is
    used up. *)
Definition Settled : Type := Turn * option Js.reason.

Definition no_session : Js.reason :=
  Js.TypeError "ctx.session is undefined".

(** A middleware body, [next] being the continuation it was called with. *)
Fixpoint call (next : Turn -> option Settled) (m : ChatbotMiddleware) (t : Turn)
  : option Settled :=
  match m with
  | MwResolve => Some (t, None)
  | MwReject e => Some (t, Some e)
  | MwNext k =>
      match next t with
      | Some (t', o) => call next (k o) t'
      | None => None
      end
  | MwRead k => call next (k (ctx t)) t
  | MwSetNotUnderstand n k =>
      match ctx_session (ctx t) with
      | Some s => call next k (with_session (Some (set_consecutiveNotUnderstand n s)) t)
      | None => Some (t, Some no_session)
      end
  | MwSave k =>
      match ctx_session (ctx t) with
      | Some s =>
          match Session_save s (world t) with
          | (w, inr s') => call next (k None) (with_session (Some s') (with_world w t))
          | (w, inl e) => call next (k (Some e)) (with_world w t)
          end
      | None => call next (k (Some no_session)) t
      end
  | MwUser f k => call next k (with_user (f (user t)) t)
  end.

(** [execNextMiddleware]: reading past the end of the array gives
    [undefined], and the chain resolves. *)
Fixpoint execNextMiddleware (pipeline : list ChatbotMiddleware) (budget : nat) (t : Turn)
  : option Settled :=
  match pipeline !! currentMiddlewareIndex t with
  | Some m =>
      match budget with
      | S budget' => call (execNextMiddleware pipeline budget') m (started t)
      | O => None
      end
  | None => Some (t, None)
  end.

(** The [then] callback of [onMessage], up to [session.save()].  [session]
    and [ctx.session] are one object. *)
Definition update_session (session : Session) : Session :=
  let s1 := set_previousNotUnderstand
              (Js.number (get_consecutiveNotUnderstand session)) session in
  let s2 := set_consecutiveNotUnderstand 0 s1 in
  set_messageCount (Js.postfix_incr (messageCount s2)) s2.

Definition initial (bot : Chatbot) (message : Message) (w : World) (u : U) : Turn :=
  {| world := w;
     ctx := {| ctx_recastSdk := recastSdk bot;
               ctx_config := config bot;
               ctx_message := message;
               ctx_session := None |};
     currentMiddlewareIndex := 0;
     user := u;
     ran := [] |}.

(** Every nested [next()] finds the index one further, so the calls are
    never nested deeper than the pipeline is long. *)
Definition budget_of (bot : Chatbot) : nat := length (middlewarePipeline bot).

(** What the chain itself keeps of a turn. *)
Definition view (t : Turn) : nat * list nat := (currentMiddlewareIndex t, ran t).

Definition onMessage (bot : Chatbot) (message : Message) (w : World) (u : U)
  : option Settled :=
  let t0 := initial bot message w u in
  if isMongoEnabled bot then
    match Session_findOrCreateById (message_conversationId message) w with
    | (w1, inr session) =>
        let session' := update_session session in
        let t1 := with_session (Some session') (with_world w1 t0) in
        match Session_save session' w1 with
        | (w2, inr saved) =>
            execNextMiddleware (middlewarePipeline bot) (budget_of bot)
              (with_session (Some saved) (with_world w2 t1))
        | (w2, inl e) => Some (with_world w2 t1, Some e)
        end
    | (w1, inl e) => Some (with_world w1 t0, Some e)
    end
  else execNextMiddleware (middlewarePipeline bot) (budget_of bot) t0.

(** *** The text entry point *)

Record Body : Type := {
  body_message : option string;
  body_text : option string;
}.

Record Conversation : Type := {
  reply : option string;
  conversationToken : string;
}.

(** What the NLU SDK answers: [handleMessage] may throw, [converseText]
    is rejected or resolves with a conversation or [null]. *)
Record Sdk : Type := {
  handleMessage : Body -> option Js.reason;
  converseText : string -> string -> Js.reason + option Conversation;
}.

Inductive Data : Type :=
| Result (result : string)
| Reply (reply : string) (conversationToken : string).

(** What the entry point does to the outside.  [onMessage] reaches the SDK
    only as the third argument of [handleMessage]; the callback is the
    caller's, and a call of it is taken to return. *)
Inductive Event : Type :=
| HandleMessage (body : Body)
| ConverseText (text : string) (conversationToken : string)
| Callback (err : option Js.reason) (data : option Data).

Definition botHostingEntrypoint (bot : Chatbot) (sdk : Sdk) (body : Body) : list Event :=
  if Js.truthy (body_message body) then
    match handleMessage sdk body with
    | None => [HandleMessage body; Callback None (Some (Result "Bot answered :)"))]
    | Some err => [HandleMessage body; Callback (Some err) None]
    end
  else if Js.truthy (body_text body) then
    let text := default "" (body_text body) in
    let asked := ConverseText text (requestToken (config bot)) in
    match converseText sdk text (requestToken (config bot)) with
    | inr (Some res) =>
        if Js.truthy (reply res)
        then [asked; Callback None
                       (Some (Reply (default "" (reply res)) (conversationToken res)))]
        else [asked; Callback None (Some (Reply "No reply :(" (conversationToken res)))]
    | inr None =>
        [asked; Callback (Some (Js.TypeError "res is null")) None]
    | inl err => [asked; Callback (Some err) None]
    end
  else [Callback (Some (Js.Str "No text provided")) None].

End Dispatcher.

Arguments MwResolve {U}.
Arguments MwReject {U} e.
Arguments MwNext {U} k.
Arguments MwRead {U} k.
Arguments MwSetNotUnderstand {U} n k.
Arguments MwSave {U} k.
Arguments MwUser {U} f k.
Arguments config {U} c.
Arguments recastSdk {U} c.
Arguments middlewarePipeline {U} c.
Arguments new_Chatbot {U} cfg.
Arguments use {U} middleware bot.
Arguments connectToMongo {U} cfg bot.
Arguments isMongoEnabled {U} bot.
Arguments world {U} t.
Arguments ctx {U} t.
Arguments currentMiddlewareIndex {U} t.
Arguments user {U} t.
Arguments ran {U} t.
Arguments with_world {U} w t.
Arguments with_session {U} s t.
Arguments with_user {U} u t.
Arguments started {U} t.
Arguments call {U} next m t.
Arguments execNextMiddleware {U} pipeline budget t.
Arguments initial {U} bot message w u.
Arguments budget_of {U} bot.
Arguments view {U} t.
Arguments onMessage {U} bot message w u.
Arguments botHostingEntrypoint {U} bot sdk body.

(** ** Notions used by the statements *)

(** No failure of the backend is pending. *)
Definition healthy (w : World) : Prop := faults w = [].

(** The records held for a conversation. *)
Definition stored (cid : string) (w : World) : list ISessionDocument :=
  filter (has_conversationId cid) (records w).

Definition stored_first (cid : string) (w : World) : option ISessionDocument :=
  snd <$> list_find (has_conversationId cid) (records w).



(** The turn went from [t] to [t'] by starting the positions from the index
    of [t] up to the index of [t'], each once and in order. *)
Definition advanced {U} (t t' : Turn U) : Prop :=
  currentMiddlewareIndex t <= currentMiddlewareIndex t'
  /\ ran t' = ran t ++ seq (currentMiddlewareIndex t)
                           (currentMiddlewareIndex t' - currentMiddlewareIndex t).

(** ** Sample bots *)

Module Sample.

Definition at_ (now : Z) : World :=
  {| records := []; clock := now; faults := []; oplog := [] |}.


Definition plain : IChatbotConfig :=
  {| requestToken := "request-token"; connectToken := None;
     language := en; mongo := None |}.

Definition persistent : IChatbotConfig :=
  {| requestToken := "request-token"; connectToken := None;
     language := en;
     mongo := Some {| hostname := "localhost"; database := "jabba";
                      username := None; password := None; ssl := None;
                      replicaSetName := None; port := Some "27017";
                      enabled := None |} |}.

Definition hello : Message :=
  {| message_conversationId := "c1"; content := "hello" |}.

(** Three counters, one per middleware. *)
Definition Counters : Type := nat * nat * nat.

Definition hand_on (o : option Js.reason) : ChatbotMiddleware Counters :=
  match o with
  | None => MwResolve
  | Some e => MwReject e
  end.

Definition M1 : ChatbotMiddleware Counters :=
  MwUser (fun '(a, b, c) => (S a, b, c)) (MwNext hand_on).

Definition M2 : ChatbotMiddleware Counters :=
  MwUser (fun '(a, b, c) => (a, S b, c)) MwResolve.

Definition M3 : ChatbotMiddleware Counters :=
  MwUser (fun '(a, b, c) => (a, b, S c)) (MwNext hand_on).


Definition bot123 : Chatbot Counters := use M3 (use M2 (use M1 (new_Chatbot plain))).


(** A middleware that notes what it finds in the session. *)
Definition Seen : Type := list (Js.value * Z).

Definition observer : ChatbotMiddleware Seen :=
  MwRead (fun c =>
    match ctx_session c with
    | Some s =>
        MwUser (fun _ => [(_previousNotUnderstand s, get_consecutiveNotUnderstand s)])
          (MwNext (fun _ => MwResolve))
    | None => MwNext (fun _ => MwResolve)
    end).

Definition watching : Chatbot Seen := use observer (new_Chatbot persistent).

Definition silent : Chatbot unit := new_Chatbot persistent.

(** A world in which conversation [c1] was left with two misunderstandings. *)
Definition twice_lost : World :=
  {| records := [ {| _id := 0;
                     _doc := {| conversationId := "c1";
                                consecutiveNotUnderstand := 2;
                                createdAt := Some 10%Z;
                                updatedAt := Some 10%Z |} |} ];
     clock := 50; faults := []; oplog := [] |}.

Definition blank : Session :=
  new_Session {| _id := 0;
                 _doc := {| conversationId := "c1";
                            consecutiveNotUnderstand := 0;
                            createdAt := Some 10%Z;
                            updatedAt := Some 10%Z |} |}.

Definition quiet_sdk : Sdk :=
  {| handleMessage := fun _ => None;
     converseText := fun _ t => inr (Some {| reply := Some "hi"; conversationToken := t |}) |}.


End Sample.

(** ** The rest of the two files *)

(** How a template literal writes a property that may be missing. *)
Definition interpolate (s : option string) : string := default "undefined" s.

Definition interpolate_bool (b : option bool) : string :=
  match b with
  | Some true => "true"
  | Some false => "false"
  | None => "undefined"
  end.

(** The string [connectToMongo] hands to [mongoose.connect]. *)
Definition connectionString (config : IMongoConfig) : string :=
  let auth :=
    if Js.truthy (username config)
    then interpolate (username config) +:+ ":" +:+ interpolate (password config) +:+ "@"
    else "" in
  let connectionString :=
    "mongodb://" +:+ auth +:+ hostname config +:+ ":" +:+ interpolate (port config)
    +:+ "/" +:+ database config +:+ "?ssl=" +:+ interpolate_bool (ssl config) in
  if Js.truthy (replicaSetName config)
  then connectionString +:+ "&replicaSet=" +:+ interpolate (replicaSetName config)
  else connectionString.

Definition with_password (p : option string) (m : IMongoConfig) : IMongoConfig :=
  {| hostname := hostname m; database := database m;
     username := username m; password := p;
     ssl := ssl m; replicaSetName := replicaSetName m;
     port := port m; enabled := enabled m |}.

(** [bot.use(m1).use(m2)...]: [use] returns the bot, so calls are chained. *)
Definition use_all {U} (ms : list (ChatbotMiddleware U)) (bot : Chatbot U) : Chatbot U :=
  foldl (fun b m => use m b) bot ms.




(** Every record of the store has its counter at 2 or below. *)
Definition capped (w : World) : Prop :=
  Forall (fun r => (consecutiveNotUnderstand (_doc r) <= 2)%Z) (records w).

(** [ctx.session.consecutiveNotUnderstand = n; await ctx.session.save()],
    and the same without the save. *)
Definition remember {U} (n : Z) : ChatbotMiddleware U :=
  MwSetNotUnderstand n (MwSave (fun _ => MwResolve)).


Definition is_Callback (e : Event) : bool :=
  match e with
  | Callback _ _ => true
  | _ => false
  end.

Definition is_ConverseText (e : Event) : bool :=
  match e with
  | ConverseText _ _ => true
  | _ => false
  end.

(** The callback was last called without an error. *)
Definition answered (events : list Event) : bool :=
  match last events with
  | Some (Callback None _) => true
  | _ => false
  end.

Module More.

Definition local : IMongoConfig :=
  {| hostname := "localhost"; database := "jabba";
     username := None; password := None; ssl := None;
     replicaSetName := None; port := None; enabled := Some false |}.

Definition switched_off : IChatbotConfig :=
  {| requestToken := "request-token"; connectToken := None;
     language := en; mongo := Some local |}.

Definition remembering (n : Z) : Chatbot unit :=
  use (remember n) (new_Chatbot Sample.persistent).




Definition text_body : Body := {| body_message := None; body_text := Some "hi" |}.

Definition both_body : Body := {| body_message := Some "m"; body_text := Some "hi" |}.

Definition mute_sdk : Sdk :=
  {| handleMessage := fun _ => None;
     converseText := fun _ t => inr (Some {| reply := None; conversationToken := t |}) |}.

End More.

(** * Properties *)

(** ** The session store *)

Section Store.

Implicit Types (w : World) (cid : string) (d : ISessionDocument) (s : Session).

Lemma request_healthy op w :
  healthy w ->
  request op w =
    ({| records := records w; clock := clock w; faults := [];
        oplog := oplog w ++ [op] |}, inr tt).
Proof. unfold healthy, request. intros ->. reflexivity. Qed.

Lemma request_keeps op w w' r :
  request op w = (w', r) ->
  records w' = records w /\ clock w' = clock w /\ oplog w' = oplog w ++ [op].
Proof.
  unfold request. destruct (faults w) as [|[e|] fs]; intros [= <- <-]; auto.
Qed.

Lemma request_rejection op w w' e :
  request op w = (w', inl e) -> exists msg, e = Js.BackendError msg.
Proof.
  unfold request. destruct (faults w) as [|[msg|] fs]; intros [= <- <-]; eauto.
Qed.

(** The hook as it is registered leaves the document alone. *)
Lemma run_pre_save_unchanged d now : run_pre_save d now = d.
Proof. reflexivity. Qed.

(** The same body, had [this] been the document. *)
Lemma pre_save_on_document d now :
  exists d',
    pre_save (DocumentThis d) now = DocumentThis d'
    /\ updatedAt (_doc d') = Some now
    /\ createdAt (_doc d') = Some (default now (createdAt (_doc d)))
    /\ consecutiveNotUnderstand (_doc d') = consecutiveNotUnderstand (_doc d)
    /\ conversationId (_doc d') = conversationId (_doc d).
Proof.
  destruct d as [i [c n [cr|] up]]; simpl; eexists; split; try reflexivity;
    simpl; auto.
Qed.

Lemma stored_first_None cid w : stored_first cid w = None <-> stored cid w = [].
Proof.
  unfold stored_first, stored. rewrite fmap_None, list_find_None.
  induction (records w) as [|r rs IH]; [easy|].
  rewrite Forall_cons, IH, filter_cons.
  destruct (decide (has_conversationId cid r)); split; try easy; tauto.
Qed.

Lemma stored_first_fresh cid rs d :
  filter (has_conversationId cid) rs = [] ->
  has_conversationId cid d ->
  snd <$> list_find (has_conversationId cid) (rs ++ [d]) = Some d.
Proof.
  intros Hnone Hd.
  assert (list_find (has_conversationId cid) rs = None) as Hfind.
  { apply list_find_None, Forall_forall. intros x Hx Hp.
    exact (filter_nil_not_elem_of _ _ _ Hnone Hp Hx). }
  rewrite (list_find_app_r _ _ _ Hfind). simpl.
  destruct (decide (has_conversationId cid d)); [reflexivity | contradiction].
Qed.



(** Saving writes the in-memory paths and nothing else: the time stamps
    of the document are the ones it was read or created with. *)
Lemma Session_save_resolved s w w' s' :
  Session_save s w = (w', inr s') ->
  s' = s
  /\ records w' = write_back (document s) <$> records w
  /\ oplog w' = oplog w ++ [OpSave (_id (document s))].
Proof.
  unfold Session_save, document_save, then_, new_Date, resolve.
  rewrite run_pre_save_unchanged.
  destruct (request (OpSave (_id (document s))) w) as [w1 [e|[]]] eqn:Hr;
    [discriminate|].
  apply request_keeps in Hr as (Hrec & _ & Hlog).
  intros [= <- <-]. simpl. rewrite Hrec, Hlog.
  destruct s as [dd p m]; auto.
Qed.

Lemma Session_save_rejected s w w' e :
  Session_save s w = (w', inl e) ->
  records w' = records w /\ exists msg, e = Js.BackendError msg.
Proof.
  unfold Session_save, document_save, then_, new_Date, resolve.
  rewrite run_pre_save_unchanged.
  destruct (request (OpSave (_id (document s))) w) as [w1 [e1|[]]] eqn:Hr;
    [|discriminate].
  intros [= <- <-]. split.
  - apply (request_keeps _ _ _ _ Hr).
  - apply (request_rejection _ _ _ _ Hr).
Qed.

End Store.

(** ** The clamp of [consecutiveNotUnderstand] *)

(** C1, as the setter has it: for every integer [n] the assignment stores
    [min(n, 2)], which is at most 2; the stored value is in [0, 2] when [n]
    is not negative, and a negative [n] is stored as it is. *)
Theorem C1_setter_stores_min (n : Z) (s : Session) :
  let v := get_consecutiveNotUnderstand (set_consecutiveNotUnderstand n s) in
  v = Z.min n 2
  /\ (v <= 2)%Z
  /\ ((0 <= n)%Z -> (0 <= v <= 2)%Z)
  /\ ((n < 0)%Z -> v = n).
Proof.
  unfold get_consecutiveNotUnderstand, set_consecutiveNotUnderstand, Js.Math_min.
  cbn. split; [reflexivity|]. lia.
Qed.

Lemma C1_setter_stores_min_witness :
  (0 <= 7)%Z
  /\ (0 <= get_consecutiveNotUnderstand
             (set_consecutiveNotUnderstand 7 Sample.blank) <= 2)%Z.
Proof.
  split; [lia|].
  destruct (C1_setter_stores_min 7 Sample.blank) as (_ & _ & Hin & _).
  apply Hin. lia.
Defined.

(** C1 as it is worded fails at [n = -1]: the value is neither refused nor
    raised to 0, and the stored value leaves [0, 2]. *)
Lemma C1_negative_is_stored :
  let s := set_consecutiveNotUnderstand (-1) Sample.blank in
  get_consecutiveNotUnderstand s = (-1)%Z
  /\ ~ (0 <= get_consecutiveNotUnderstand s <= 2)%Z.
Proof.
  cbv zeta. split; [reflexivity|].
  change (get_consecutiveNotUnderstand
            (set_consecutiveNotUnderstand (-1) Sample.blank)) with (-1)%Z.
  lia.
Qed.

(** ** Find-or-create *)



(** ** Saving *)

(** C8 at a session created at time 100 and saved at time 200, after an
    assignment: the write carries the in-memory counter and the same session
    is returned, but [updatedAt] is still 100 in the session and in the
    store.  The hook that would set it never sees the document. *)
Theorem C8_save_leaves_updatedAt :
  exists w1 s w2 s',
    Session_create "c1" (Sample.at_ 100) = (w1, inr s)
    /\ Session_save (set_consecutiveNotUnderstand 1 s) (set_clock 200 w1) = (w2, inr s')
    /\ s' = set_consecutiveNotUnderstand 1 s
    /\ (consecutiveNotUnderstand ∘ _doc) <$> records w2 = [1%Z]
    /\ (createdAt ∘ _doc) <$> records w2 = [Some 100%Z]
    /\ (updatedAt ∘ _doc) <$> records w2 = [Some 100%Z]
    /\ updatedAt (_doc (document s')) = Some 100%Z
    /\ clock w2 = 200%Z.
Proof. do 4 eexists. repeat split. Qed.

(** ** The text entry point *)



(** ** The middleware chain *)

Section Chain.

Context {U : Type}.
Implicit Types (t : Turn U) (m : ChatbotMiddleware U) (o : option Js.reason).
Implicit Types (pipeline : list (ChatbotMiddleware U)) (budget : nat).

Ltac settle H := injection H as <- <-.

(** A relation between views that holds across [next] holds across a whole
    middleware body: nothing else in a body touches the index. *)
Lemma call_view (P : nat * list nat -> nat * list nat -> Prop)
    (next : Turn U -> option (Settled U)) :
  (forall v, P v v) ->
  (forall v1 v2 v3, P v1 v2 -> P v2 v3 -> P v1 v3) ->
  (forall t t' o, next t = Some (t', o) -> P (view t) (view t')) ->
  forall m t t' o, call next m t = Some (t', o) -> P (view t) (view t').
Proof.
  intros Hrefl Htrans Hnext.
  induction m as [|e|k IH|k IH|n k IH|k IH|f k IH]; simpl; intros t t' o H.
  - settle H. apply Hrefl.
  - settle H. apply Hrefl.
  - destruct (next t) as [[t1 o1]|] eqn:Hn; [|discriminate].
    eapply Htrans; [eapply Hnext, Hn | eapply IH, H].
  - eapply IH, H.
  - destruct (ctx_session (ctx t)) as [s|].
    + apply IH in H. exact H.
    + settle H. apply Hrefl.
  - destruct (ctx_session (ctx t)) as [s|].
    + destruct (Session_save s (world t)) as [w [e|s']]; apply IH in H; exact H.
    + apply IH in H. exact H.
  - apply IH in H. exact H.
Qed.

Lemma execNextMiddleware_view (P : nat * list nat -> nat * list nat -> Prop) pipeline :
  (forall v, P v v) ->
  (forall v1 v2 v3, P v1 v2 -> P v2 v3 -> P v1 v3) ->
  (forall i r, i < length pipeline -> P (i, r) (S i, r ++ [i])) ->
  forall budget t t' o,
    execNextMiddleware pipeline budget t = Some (t', o) -> P (view t) (view t').
Proof.
  intros Hrefl Htrans Hstep.
  induction budget as [|budget IH]; simpl; intros t t' o H;
    destruct (pipeline !! currentMiddlewareIndex t) as [m|] eqn:Hm;
    try discriminate; try (settle H; apply Hrefl).
  - eapply Htrans.
    + apply (Hstep (currentMiddlewareIndex t) (ran t)).
      apply (lookup_lt_Some _ _ _ Hm).
    + apply (call_view P _ Hrefl Htrans IH) in H. exact H.
Qed.

Lemma advanced_view t t' :
  advanced t t' <->
  (view t).1 <= (view t').1
  /\ (view t').2 = (view t).2 ++ seq (view t).1 ((view t').1 - (view t).1).
Proof. reflexivity. Qed.

(** The positions are started one after the other, each once. *)
Lemma execNextMiddleware_advanced pipeline budget t t' o :
  execNextMiddleware pipeline budget t = Some (t', o) -> advanced t t'.
Proof.
  intros H. apply advanced_view.
  apply (execNextMiddleware_view
           (fun v v' => v.1 <= v'.1 /\ v'.2 = v.2 ++ seq v.1 (v'.1 - v.1)) pipeline)
    in H; [exact H| | |].
  - intros [i r]. simpl. split; [lia|].
    replace (i - i) with 0 by lia. simpl. now rewrite app_nil_r.
  - intros [i1 r1] [i2 r2] [i3 r3]. simpl. intros [H1 ->] [H2 ->].
    split; [lia|]. rewrite <- app_assoc. f_equal.
    replace (i3 - i1) with ((i2 - i1) + (i3 - i2)) by lia.
    rewrite seq_app. do 2 f_equal. lia.
  - intros i r _. simpl. split; [lia|].
    replace (S i - i) with 1 by lia. reflexivity.
Qed.

(** The index never passes the end of the pipeline. *)
Lemma execNextMiddleware_within pipeline budget t t' o :
  execNextMiddleware pipeline budget t = Some (t', o) ->
  currentMiddlewareIndex t <= length pipeline ->
  currentMiddlewareIndex t' <= length pipeline.
Proof.
  intros H.
  refine (execNextMiddleware_view
            (fun v v' => v.1 <= length pipeline -> v'.1 <= length pipeline)
            pipeline _ _ _ budget t t' o H);
    simpl; intros; auto with lia.
Qed.

(** A body always settles when [next] does, from the index on. *)
Lemma call_settles (next : Turn U -> option (Settled U)) (lo : nat) :
  (forall t, lo <= currentMiddlewareIndex t -> is_Some (next t)) ->
  (forall t t' o, next t = Some (t', o) ->
                  currentMiddlewareIndex t <= currentMiddlewareIndex t') ->
  forall m t, lo <= currentMiddlewareIndex t -> is_Some (call next m t).
Proof.
  intros Hsome Hmono.
  induction m as [|e|k IH|k IH|n k IH|k IH|f k IH]; simpl; intros t Ht; eauto.
  - destruct (Hsome t Ht) as [[t1 o1] Hn]. rewrite Hn.
    apply IH. apply Hmono in Hn. lia.
  - destruct (ctx_session (ctx t)) as [s|]; eauto.
  - destruct (ctx_session (ctx t)) as [s|]; eauto.
    destruct (Session_save s (world t)) as [w [e|s']]; eauto.
Qed.

(** The chain always settles: a budget above the number of positions left
    is never used up. *)
Lemma execNextMiddleware_settles pipeline :
  forall budget t,
    length pipeline <= budget + currentMiddlewareIndex t ->
    is_Some (execNextMiddleware pipeline budget t).
Proof.
  induction budget as [|budget IH]; simpl; intros t Ht;
    (destruct (pipeline !! currentMiddlewareIndex t) as [m|] eqn:Hm; [|eauto]).
  - apply lookup_lt_Some in Hm. lia.
  - apply (call_settles _ (S (currentMiddlewareIndex t))).
    + intros t1 Ht1. apply IH. lia.
    + intros t1 t2 o Hn. apply execNextMiddleware_advanced in Hn. apply Hn.
    + simpl. lia.
Qed.

End Chain.

Section Turns.

Context {U : Type}.
Implicit Types (t : Turn U) (m : ChatbotMiddleware U) (o : option Js.reason).
Implicit Types (pipeline : list (ChatbotMiddleware U)) (budget : nat).
Implicit Types (bot : Chatbot U) (w : World) (u : U).

Ltac settle H := injection H as <- <-.

(** Persistence is enabled exactly for a bot built with a [mongo]
    descriptor, or connected afterwards. *)
Lemma isMongoEnabled_new_Chatbot (cfg : IChatbotConfig) (d : IMongoConfig) :
  isMongoEnabled (new_Chatbot (U:=U) cfg) = bool_decide (is_Some (mongo cfg))
  /\ isMongoEnabled (connectToMongo d (new_Chatbot (U:=U) cfg)) = true.
Proof. split; [|reflexivity]. unfold isMongoEnabled. simpl. now destruct (mongo cfg). Qed.

(** Registration puts a middleware behind the ones registered before. *)
Lemma use_registers_last middleware bot :
  middlewarePipeline (use middleware bot)
  = middlewarePipeline bot ++ [middleware]
  /\ middlewarePipeline (use middleware bot) !! length (middlewarePipeline bot)
     = Some middleware
  /\ isMongoEnabled (use middleware bot) = isMongoEnabled bot.
Proof.
  split; [reflexivity|]. split; [|reflexivity].
  simpl. rewrite lookup_app_r by lia. now rewrite Nat.sub_diag.
Qed.





(** Without a session in the context, no request reaches the store. *)
Lemma call_without_session next :
  (forall t t' o, ctx_session (ctx t) = None -> next t = Some (t', o) ->
                  world t' = world t /\ ctx t' = ctx t) ->
  forall m t t' o, ctx_session (ctx t) = None -> call next m t = Some (t', o) ->
                   world t' = world t /\ ctx t' = ctx t.
Proof.
  intros Hnext.
  induction m as [|e|k IH|k IH|n k IH|k IH|f k IH]; simpl; intros t t' o Ht H.
  - settle H. auto.
  - settle H. auto.
  - destruct (next t) as [[t1 o1]|] eqn:Hn; [|discriminate].
    destruct (Hnext _ _ _ Ht Hn) as [Hw Hc].
    rewrite <- Hw, <- Hc. apply (IH _ _ _ _) in H; [exact H|]. now rewrite Hc.
  - apply (IH _ _ _ _ Ht H).
  - rewrite Ht in H. settle H. auto.
  - rewrite Ht in H. apply (IH _ _ _ _ Ht H).
  - apply IH in H; [exact H | exact Ht].
Qed.

Lemma execNextMiddleware_without_session pipeline budget t t' o :
  ctx_session (ctx t) = None ->
  execNextMiddleware pipeline budget t = Some (t', o) ->
  world t' = world t /\ ctx t' = ctx t.
Proof.
  revert t t' o.
  induction budget as [|budget IH]; simpl; intros t t' o Ht H;
    destruct (pipeline !! currentMiddlewareIndex t) as [m|] eqn:Hm;
    try discriminate; try (settle H; auto).
  apply (call_without_session _ IH m (started t) t' o Ht H).
Qed.

(** The chain run from the start of a turn. *)
Lemma chain_from_start pipeline t :
  currentMiddlewareIndex t = 0 ->
  ran t = [] ->
  exists t' o,
    execNextMiddleware pipeline (length pipeline) t = Some (t', o)
    /\ ran t' = seq 0 (currentMiddlewareIndex t')
    /\ currentMiddlewareIndex t' <= length pipeline.
Proof.
  intros Hi Hr.
  destruct (execNextMiddleware_settles pipeline (length pipeline) t) as [[t' o] H];
    [lia|].
  exists t', o. split; [exact H|]. split.
  - destruct (execNextMiddleware_advanced _ _ _ _ _ H) as [_ Hran].
    rewrite Hran, Hr, Hi, Nat.sub_0_r. reflexivity.
  - apply (execNextMiddleware_within _ _ _ _ _ H). lia.
Qed.

(** A turn either stops before the chain, on a rejection of the store, or
    is the chain run from position 0. *)
Lemma onMessage_shape bot message w u :
  exists t1,
    currentMiddlewareIndex t1 = 0 /\ ran t1 = [] /\ user t1 = u
    /\ ((exists e, onMessage bot message w u = Some (t1, Some e))
        \/ onMessage bot message w u
           = execNextMiddleware (middlewarePipeline bot) (budget_of bot) t1).
Proof.
  unfold onMessage.
  destruct (isMongoEnabled bot).
  - destruct (Session_findOrCreateById _ w) as [w1 [e|session]].
    + eexists. split; [|split; [|split; [|left; eexists; reflexivity]]]; reflexivity.
    + destruct (Session_save _ w1) as [w2 [e|saved]].
      * eexists.
        split; [|split; [|split; [|left; eexists; reflexivity]]]; reflexivity.
      * eexists. split; [|split; [|split; [|right; reflexivity]]]; reflexivity.
  - eexists. split; [|split; [|split; [|right; reflexivity]]]; reflexivity.
Qed.

Lemma onMessage_settles bot message w u :
  exists t o,
    onMessage bot message w u = Some (t, o)
    /\ ran t = seq 0 (currentMiddlewareIndex t)
    /\ currentMiddlewareIndex t <= length (middlewarePipeline bot).
Proof.
  destruct (onMessage_shape bot message w u) as (t1 & Hi & Hr & _ & [[e H]|H]).
  - exists t1, (Some e). rewrite Hi, Hr. split; [exact H|]. split; [reflexivity|lia].
  - rewrite H. apply (chain_from_start _ _ Hi Hr).
Qed.

(** What find-or-create resolves with is the first record of the
    conversation, freshly wrapped. *)
Lemma findOrCreateById_resolved cid w w1 session :
  Session_findOrCreateById cid w = (w1, inr session) ->
  stored_first cid w1 = Some (document session)
  /\ session = new_Session (document session).
Proof.
  unfold Session_findOrCreateById, SessionModel_findOne, then_.
  destruct (request (OpFindOne cid) w) as [wa [e|[]]] eqn:Hr; [discriminate|].
  cbv beta iota.
  destruct (list_find (has_conversationId cid) (records wa)) as [[i d]|] eqn:Hf;
    simpl.
  - unfold resolve. intros [= <- <-]. unfold stored_first. rewrite Hf. auto.
  - unfold Session_create, SessionModel_create, then_, new_Date, resolve.
    cbn [conversationId].
    destruct (request (OpCreate cid) wa) as [wb [e|[]]] eqn:Hc; [discriminate|].
    intros [= <- <-]. split; [|reflexivity].
    unfold stored_first. simpl. apply stored_first_fresh; [|reflexivity].
    apply request_keeps in Hc as (-> & _).
    apply (stored_first_None cid wa). unfold stored_first. now rewrite Hf.
Qed.

(** The counter that [onMessage] increments is a property nothing ever
    gave to the session: the increment leaves [NaN]. *)
Lemma update_session_fresh (d : ISessionDocument) :
  let s := update_session (new_Session d) in
  messageCount s = Js.NaN
  /\ _previousNotUnderstand s = Js.number (consecutiveNotUnderstand (_doc d))
  /\ get_consecutiveNotUnderstand s = 0%Z.
Proof. repeat split. Qed.

End Turns.

(** ** The turn *)



(** C4: when persistence is enabled and the session is resolved and saved,
    the session handed to the chain is the stored record of the conversation
    with [_previousNotUnderstand] holding the counter that record had and
    [consecutiveNotUnderstand] at 0; this is the context the first middleware
    reads.  With 2 stored, it reads 2 and 0. *)
Theorem C4_snapshot_before_reset {U} (bot : Chatbot U) (message : Message)
    (w w1 w2 : World) (u : U) (session saved : Session) :
  isMongoEnabled bot = true ->
  Session_findOrCreateById (message_conversationId message) w = (w1, inr session) ->
  Session_save (update_session session) w1 = (w2, inr saved) ->
  let t1 := with_session (Some saved) (with_world w2 (initial bot message w u)) in
  stored_first (message_conversationId message) w1 = Some (document session)
  /\ ctx_session (ctx t1) = Some saved
  /\ _previousNotUnderstand saved
     = Js.number (consecutiveNotUnderstand (_doc (document session)))
  /\ get_consecutiveNotUnderstand saved = 0%Z
  /\ onMessage bot message w u
     = execNextMiddleware (middlewarePipeline bot) (budget_of bot) t1
  /\ (forall k rest,
        middlewarePipeline bot = MwRead k :: rest ->
        onMessage bot message w u
        = call (execNextMiddleware (middlewarePipeline bot) (length rest))
            (k (ctx t1)) (started t1))
  /\ (consecutiveNotUnderstand (_doc (document session)) = 2%Z ->
      _previousNotUnderstand saved = Js.number 2
      /\ get_consecutiveNotUnderstand saved = 0%Z)
  /\ is_Some (onMessage bot message w u).
Proof.
  intros Hon Hfind Hsave t1.
  destruct (findOrCreateById_resolved _ _ _ _ Hfind) as [Hstored Hfresh].
  destruct (Session_save_resolved _ _ _ _ Hsave) as (-> & _).
  assert (onMessage bot message w u
          = execNextMiddleware (middlewarePipeline bot) (budget_of bot) t1) as Hrun.
  { unfold onMessage. rewrite Hon, Hfind, Hsave. reflexivity. }
  split; [exact Hstored|]. split; [reflexivity|].
  split; [reflexivity|]. split; [reflexivity|]. split; [exact Hrun|].
  split; [|split].
  - intros k rest Hp. rewrite Hrun. unfold budget_of. rewrite Hp. reflexivity.
  - intros H2. split; [|reflexivity].
    change (Js.number (consecutiveNotUnderstand (_doc (document session))) = Js.number 2).
    now rewrite H2.
  - destruct (onMessage_settles bot message w u) as (t & o & H & _). rewrite H. eauto.
Qed.

Lemma C4_snapshot_before_reset_witness :
  exists t,
    onMessage Sample.watching Sample.hello Sample.twice_lost [] = Some (t, None)
    /\ user t = [(Js.number 2, 0%Z)].
Proof.
  edestruct (fun w1 w2 =>
               C4_snapshot_before_reset Sample.watching Sample.hello
                 Sample.twice_lost w1 w2 [])
    as (_ & _ & _ & _ & Hrun & _ & _ & _);
    [reflexivity | reflexivity | reflexivity |].
  eexists. split; [rewrite Hrun; reflexivity | reflexivity].
Defined.

(** C2 on a first and on a second message of a conversation, persistence
    enabled, no middleware registered: both turns resolve and leave
    [consecutiveNotUnderstand] at 0 in the session and in the store, but
    [messageCount] is [NaN] after each of them, not a count one above the
    count before.  The property sits on the wrapper, which is built anew
    every turn; the stored record has no such path. *)
Theorem C2_messageCount_is_not_a_count :
  exists t saved t' saved',
    onMessage Sample.silent Sample.hello (Sample.at_ 5) tt = Some (t, None)
    /\ ctx_session (ctx t) = Some saved
    /\ get_consecutiveNotUnderstand saved = 0%Z
    /\ messageCount saved = Js.NaN
    /\ onMessage Sample.silent Sample.hello (world t) tt = Some (t', None)
    /\ ctx_session (ctx t') = Some saved'
    /\ get_consecutiveNotUnderstand saved' = 0%Z
    /\ messageCount saved' = Js.NaN
    /\ records (world t') = [document saved'].
Proof. do 4 eexists. repeat split. Qed.

(** C7: whatever the middlewares do with [next], a turn settles and no
    position of the pipeline is started twice; the positions started are
    0, 1, ... in that order. *)
Theorem C7_no_position_twice {U} (bot : Chatbot U) (message : Message)
    (w : World) (u : U) :
  exists t o,
    onMessage bot message w u = Some (t, o)
    /\ NoDup (ran t)
    /\ ran t = seq 0 (length (ran t))
    /\ length (ran t) <= length (middlewarePipeline bot).
Proof.
  destruct (onMessage_settles bot message w u) as (t & o & H & Hran & Hle).
  exists t, o. split; [exact H|].
  rewrite Hran, length_seq. split; [apply NoDup_seq|]. split; [reflexivity | exact Hle].
Qed.



(** The scenario of the specification: M1 and M2 run once each, M3 never. *)
Example M1_M2_M3 :
  exists t,
    onMessage Sample.bot123 Sample.hello (Sample.at_ 5) (0, 0, 0) = Some (t, None)
    /\ ran t = [0; 1]
    /\ user t = (1, 1, 0).
Proof. eexists. repeat split. Qed.





(** * Further properties *)

(** ** The store operations on their own *)

Section StoreOperations.

Implicit Types (w : World) (cid : string) (d : ISessionDocument) (s : Session).

Lemma Session_save_healthy s w :
  healthy w ->
  Session_save s w =
    ({| records := write_back (document s) <$> records w; clock := clock w;
        faults := []; oplog := oplog w ++ [OpSave (_id (document s))] |}, inr s).
Proof.
  intros Hw. unfold Session_save, document_save, then_, new_Date, resolve.
  rewrite run_pre_save_unchanged, (request_healthy _ _ Hw). simpl.
  destruct s as [dd p m]. reflexivity.
Qed.


Lemma Session_findById_healthy cid w :
  healthy w ->
  Session_findById cid w =
    ({| records := records w; clock := clock w; faults := [];
        oplog := oplog w ++ [OpFindOne cid] |},
     match stored_first cid w with
     | Some d => inr (new_Session d)
     | None => inl (Js.Str (not_found_message cid))
     end).
Proof.
  intros Hw. unfold Session_findById, SessionModel_findOne, then_.
  rewrite (request_healthy _ _ Hw). cbv beta iota. unfold stored_first. simpl.
  destruct (list_find (has_conversationId cid) (records w)) as [[i d]|]; reflexivity.
Qed.

(** Writing a document of the conversation over the record that a lookup
    returns makes the lookup return that document. *)
Lemma list_find_write_back cid (rs : list ISessionDocument) d d' i :
  list_find (has_conversationId cid) rs = Some (i, d) ->
  _id d' = _id d ->
  has_conversationId cid d' ->
  exists j, list_find (has_conversationId cid) (write_back d' <$> rs) = Some (j, d').
Proof.
  intros Hfind Hid Hcid. revert i Hfind.
  induction rs as [|r rs IH]; intros i Hfind; [discriminate|].
  simpl in *.
  destruct (decide (_id r = _id d')) as [Heq|Hne].
  - replace (write_back d' r) with d'
      by (unfold write_back; destruct (decide (_id r = _id d')); congruence).
    destruct (decide (has_conversationId cid d')); [eauto | contradiction].
  - replace (write_back d' r) with r
      by (unfold write_back; destruct (decide (_id r = _id d')); congruence).
    destruct (decide (has_conversationId cid r)) as [Hr|Hr].
    + injection Hfind as <- <-. congruence.
    + destruct (list_find (has_conversationId cid) rs) as [[k x]|] eqn:Hrs;
        [|discriminate].
      injection Hfind as <- <-.
      destruct (IH k eq_refl) as [j Hj].
      change (list_fmap _ _ (write_back d') rs) with (write_back d' <$> rs).
      rewrite Hj. simpl. eauto.
Qed.

Lemma stored_first_write_back cid w d d' :
  stored_first cid w = Some d ->
  _id d' = _id d ->
  has_conversationId cid d' ->
  snd <$> list_find (has_conversationId cid) (write_back d' <$> records w) = Some d'.
Proof.
  unfold stored_first. intros Hfind Hid Hcid.
  destruct (list_find (has_conversationId cid) (records w)) as [[i x]|] eqn:Hf;
    [|discriminate].
  injection Hfind as ->.
  destruct (list_find_write_back _ _ _ _ _ Hf Hid Hcid) as [j ->]. reflexivity.
Qed.

(** [findById] only reads: whatever it settles with, the records are the
    same and one lookup was logged; for an identifier without record, on a
    backend that answers, it is rejected with the message of the source. *)
Theorem findById_only_reads cid w w' (r : Js.reason + Session) :
  Session_findById cid w = (w', r) ->
  records w' = records w
  /\ clock w' = clock w
  /\ oplog w' = oplog w ++ [OpFindOne cid]
  /\ (healthy w -> stored cid w = [] ->
      r = inl (Js.Str ("Sersation with id " +:+ cid +:+ " not found."))).
Proof.
  intros H.
  assert (records w' = records w /\ clock w' = clock w
          /\ oplog w' = oplog w ++ [OpFindOne cid]) as Hkeep.
  { revert H. unfold Session_findById, SessionModel_findOne, then_.
    destruct (request (OpFindOne cid) w) as [wa [e|[]]] eqn:Hr.
    - intros [= <- <-]. apply (request_keeps _ _ _ _ Hr).
    - cbv beta iota. apply request_keeps in Hr.
      destruct (list_find (has_conversationId cid) (records wa)) as [[i d]|];
        simpl; intros [= <- <-]; exact Hr. }
  destruct Hkeep as (Hr & Hc & Hl). repeat (split; [assumption|]).
  intros Hw Hnone. rewrite (Session_findById_healthy _ _ Hw) in H.
  apply stored_first_None in Hnone. rewrite Hnone in H. now injection H as _ <-.
Qed.

Lemma findById_only_reads_witness :
  healthy (Sample.at_ 5) /\ stored "nobody" (Sample.at_ 5) = []
  /\ snd (Session_findById "nobody" (Sample.at_ 5))
     = inl (Js.Str "Sersation with id nobody not found.").
Proof.
  split; [reflexivity|]. split; [reflexivity|].
  destruct (Session_findById "nobody" (Sample.at_ 5)) as [w' r] eqn:H.
  destruct (findById_only_reads _ _ _ _ H) as (_ & _ & _ & Hr).
  simpl. rewrite (Hr eq_refl eq_refl). reflexivity.
Defined.





(** Assignment, [save], [findById]: on a backend that answers, what a
    session found by [findById] is assigned reaches the store clamped, and
    the next lookup returns the session with that counter and the time
    stamps it had. *)
Theorem save_then_findById cid w w1 s (n : Z) :
  healthy w ->
  Session_findById cid w = (w1, inr s) ->
  exists w2 w3 s',
    Session_save (set_consecutiveNotUnderstand n s) w1
    = (w2, inr (set_consecutiveNotUnderstand n s))
    /\ Session_findById cid w2 = (w3, inr s')
    /\ document s' = document (set_consecutiveNotUnderstand n s)
    /\ get_consecutiveNotUnderstand s' = Z.min n 2
    /\ createdAt (_doc (document s')) = createdAt (_doc (document s))
    /\ updatedAt (_doc (document s')) = updatedAt (_doc (document s))
    /\ length (records w2) = length (records w).
Proof.
  intros Hw Hfind. rewrite (Session_findById_healthy _ _ Hw) in Hfind.
  destruct (stored_first cid w) as [d|] eqn:Hd; [|discriminate].
  injection Hfind as <- <-.
  assert (has_conversationId cid d) as Hcid.
  { unfold stored_first in Hd.
    destruct (list_find (has_conversationId cid) (records w)) as [[i x]|] eqn:Hf;
      [|discriminate].
    injection Hd as ->. apply list_find_Some in Hf as (_ & Hp & _). exact Hp. }
  pose proof (stored_first_write_back cid w d
                (document (set_consecutiveNotUnderstand n (new_Session d)))
                Hd eq_refl Hcid) as Hback.
  do 3 eexists. split; [apply Session_save_healthy; reflexivity|].
  split.
  { rewrite Session_findById_healthy by reflexivity.
    unfold stored_first. cbn [records]. rewrite Hback. reflexivity. }
  repeat split. simpl. now rewrite length_fmap.
Qed.

Lemma save_then_findById_witness :
  exists w1 s w2 w3 s',
    Session_findById "c1" Sample.twice_lost = (w1, inr s)
    /\ Session_save (set_consecutiveNotUnderstand 7 s) w1
       = (w2, inr (set_consecutiveNotUnderstand 7 s))
    /\ Session_findById "c1" w2 = (w3, inr s')
    /\ get_consecutiveNotUnderstand s' = 2%Z.
Proof.
  destruct (Session_findById "c1" Sample.twice_lost) as [w1 [e|s]] eqn:Hf;
    [discriminate|].
  destruct (save_then_findById "c1" Sample.twice_lost w1 s 7 eq_refl Hf)
    as (w2 & w3 & s' & Hs & Hf' & _ & Hn & _).
  exists w1, s, w2, w3, s'. auto.
Defined.

Lemma store_rejection cid s w w' (e : Js.reason) :
  Session_create cid w = (w', inl e)
  \/ Session_findOrCreateById cid w = (w', inl e)
  \/ Session_save s w = (w', inl e) ->
  records w' = records w /\ exists msg, e = Js.BackendError msg.
Proof.
  assert (forall wa wb, Session_create cid wa = (wb, inl e) ->
            records wb = records wa /\ exists msg, e = Js.BackendError msg) as Hcreate.
  { intros wa wb. unfold Session_create, SessionModel_create, then_, new_Date, resolve.
    cbn [conversationId].
    destruct (request (OpCreate cid) wa) as [wc [e1|[]]] eqn:Hr; [|discriminate].
    intros [= <- <-]. split.
    - apply (request_keeps _ _ _ _ Hr).
    - apply (request_rejection _ _ _ _ Hr). }
  intros [H|[H|H]].
  - apply (Hcreate _ _ H).
  - revert H. unfold Session_findOrCreateById, SessionModel_findOne, then_.
    destruct (request (OpFindOne cid) w) as [wa [e1|[]]] eqn:Hr.
    + intros [= <- <-]. split.
      * apply (request_keeps _ _ _ _ Hr).
      * apply (request_rejection _ _ _ _ Hr).
    + cbv beta iota. apply request_keeps in Hr as (Hrec & _).
      destruct (list_find (has_conversationId cid) (records wa)) as [[i d]|]; simpl.
      * discriminate.
      * intros H. apply Hcreate in H as [Hrec' He]. split; [congruence | exact He].
  - apply (Session_save_rejected _ _ _ _ H).
Qed.



End StoreOperations.

(** ** What a whole turn keeps *)

Section Kept.

Context {U : Type}.

(** A property of the turn that the steps of a middleware body keep. *)
Variable I : Turn U -> Prop.

Hypothesis kept_by_assignment :
  forall t s n, I t -> ctx_session (ctx t) = Some s ->
                I (with_session (Some (set_consecutiveNotUnderstand n s)) t).
Hypothesis kept_by_save :
  forall t s w s', I t -> ctx_session (ctx t) = Some s ->
                   Session_save s (world t) = (w, inr s') ->
                   I (with_session (Some s') (with_world w t)).
Hypothesis kept_by_failed_save :
  forall t s w e, I t -> ctx_session (ctx t) = Some s ->
                  Session_save s (world t) = (w, inl e) ->
                  I (with_world w t).
Hypothesis kept_by_user : forall t u, I t -> I (with_user u t).
Hypothesis kept_by_started : forall t, I t -> I (started t).

Lemma call_keeps (next : Turn U -> option (Settled U)) :
  (forall t t' o, I t -> next t = Some (t', o) -> I t') ->
  forall m t t' o, I t -> call next m t = Some (t', o) -> I t'.
Proof.
  intros Hnext.
  induction m as [|e|k IH|k IH|n k IH|k IH|f k IH]; simpl; intros t t' o Ht H.
  - now injection H as <- <-.
  - now injection H as <- <-.
  - destruct (next t) as [[t1 o1]|] eqn:Hn; [|discriminate].
    apply (IH o1 t1 t' o); [apply (Hnext _ _ _ Ht Hn) | exact H].
  - apply (IH _ _ _ _ Ht H).
  - destruct (ctx_session (ctx t)) as [s|] eqn:Hs.
    + apply (IH _ _ _ (kept_by_assignment _ _ n Ht Hs) H).
    + now injection H as <- <-.
  - destruct (ctx_session (ctx t)) as [s|] eqn:Hs.
    + destruct (Session_save s (world t)) as [w [e|s']] eqn:Hsave.
      * apply (IH _ _ _ _ (kept_by_failed_save _ _ _ _ Ht Hs Hsave) H).
      * apply (IH _ _ _ _ (kept_by_save _ _ _ _ Ht Hs Hsave) H).
    + apply (IH _ _ _ _ Ht H).
  - apply (IH _ _ _ (kept_by_user _ _ Ht) H).
Qed.

Lemma execNextMiddleware_keeps (pipeline : list (ChatbotMiddleware U)) :
  forall budget t t' o,
    I t -> execNextMiddleware pipeline budget t = Some (t', o) -> I t'.
Proof.
  induction budget as [|budget IH]; simpl; intros t t' o Ht H;
    destruct (pipeline !! currentMiddlewareIndex t) as [m|];
    try discriminate; try (now injection H as <- <-).
  apply (call_keeps _ (fun t1 t2 o1 H1 H2 => IH t1 t2 o1 H1 H2) m (started t) t' o);
    [apply kept_by_started, Ht | exact H].
Qed.

End Kept.

Section WholeTurn.

Context {U : Type}.
Implicit Types (t : Turn U) (bot : Chatbot U) (w : World) (u : U) (s : Session).

Lemma write_back_other (d r : ISessionDocument) :
  _id r <> _id d -> write_back d r = r.
Proof. unfold write_back. destruct (decide (_id r = _id d)); congruence. Qed.

Lemma write_back_cases (d r : ISessionDocument) :
  write_back d r = d \/ write_back d r = r.
Proof. unfold write_back. destruct (decide (_id r = _id d)); auto. Qed.

(** What find-or-create does to the records, however it settles. *)
Lemma findOrCreateById_records cid w w1 (r : Js.reason + Session) :
  Session_findOrCreateById cid w = (w1, r) ->
  records w1 = records w
  \/ exists d, records w1 = records w ++ [d]
               /\ consecutiveNotUnderstand (_doc d) = 0%Z.
Proof.
  unfold Session_findOrCreateById, SessionModel_findOne, then_.
  destruct (request (OpFindOne cid) w) as [wa [e|[]]] eqn:Hr.
  - intros [= <- <-]. left. apply (request_keeps _ _ _ _ Hr).
  - cbv beta iota. apply request_keeps in Hr as (Hrec & _).
    destruct (list_find (has_conversationId cid) (records wa)) as [[i d]|]; simpl.
    + intros [= <- <-]. left. exact Hrec.
    + unfold Session_create, SessionModel_create, then_, new_Date, resolve.
      cbn [conversationId].
      destruct (request (OpCreate cid) wa) as [wb [e|[]]] eqn:Hc.
      * intros [= <- <-]. left. apply request_keeps in Hc as (-> & _). exact Hrec.
      * intros [= <- <-]. right. apply request_keeps in Hc as (Hrec' & _).
        eexists. split; [simpl; rewrite Hrec', Hrec; reflexivity | reflexivity].
Qed.

Lemma stored_first_elem cid w d :
  stored_first cid w = Some d -> d ∈ records w /\ has_conversationId cid d.
Proof.
  unfold stored_first.
  destruct (list_find (has_conversationId cid) (records w)) as [[i x]|] eqn:Hf;
    [|discriminate].
  intros [= <-]. apply list_find_Some in Hf as (Hi & Hp & _).
  split; [apply (list_elem_of_lookup_2 _ _ _ Hi) | exact Hp].
Qed.


(** The session of a turn is the one of the conversation of the message,
    from the lookup to the end of the chain. *)
Theorem session_of_the_conversation bot (message : Message) w u t o :
  onMessage bot message w u = Some (t, o) ->
  forall s, ctx_session (ctx t) = Some s ->
            get_conversationId s = message_conversationId message.
Proof.
  set (cid := message_conversationId message).
  set (I := fun t : Turn U =>
              forall s, ctx_session (ctx t) = Some s -> get_conversationId s = cid).
  assert (forall t0 t1 o1,
            I t0 ->
            execNextMiddleware (middlewarePipeline bot) (budget_of bot) t0
            = Some (t1, o1) -> I t1) as Hchain.
  { intros t0 t1 o1. apply (execNextMiddleware_keeps I); unfold I; simpl.
    - intros t2 s n Ht Hs s' [= <-]. apply (Ht _ Hs).
    - intros t2 s w' s' Ht Hs Hsave s'' [= <-].
      apply Session_save_resolved in Hsave as (-> & _). apply (Ht _ Hs).
    - intros t2 s w' e Ht _ _. exact Ht.
    - intros t2 u' Ht. exact Ht.
    - intros t2 Ht. exact Ht. }
  unfold onMessage. fold cid. destruct (isMongoEnabled bot).
  - destruct (Session_findOrCreateById cid w) as [w1 [e|session]] eqn:Hfind.
    + intros [= <- _] s. discriminate.
    + destruct (findOrCreateById_resolved _ _ _ _ Hfind) as [Hstored _].
      apply stored_first_elem in Hstored as [_ Hcid].
      destruct (Session_save (update_session session) w1) as [w2 [e|saved]] eqn:Hsave.
      * intros [= <- _] s [= <-]. exact Hcid.
      * apply Session_save_resolved in Hsave as (-> & _).
        apply Hchain. intros s [= <-]. exact Hcid.
  - apply Hchain. intros s. discriminate.
Qed.

(** A store whose counters are all at 2 or below stays so through a turn,
    whatever the middlewares assign and save, and the session the turn ends
    with has its counter at 2 or below as well. *)
Theorem turn_keeps_counters_capped bot (message : Message) w u t o :
  capped w ->
  onMessage bot message w u = Some (t, o) ->
  capped (world t)
  /\ forall s, ctx_session (ctx t) = Some s -> (get_consecutiveNotUnderstand s <= 2)%Z.
Proof.
  intros Hw.
  set (I := fun t : Turn U =>
              capped (world t)
              /\ forall s, ctx_session (ctx t) = Some s ->
                           (get_consecutiveNotUnderstand s <= 2)%Z).
  assert (forall s w0 w', capped w0 -> (get_consecutiveNotUnderstand s <= 2)%Z ->
            forall r, Session_save s w0 = (w', r) -> capped w') as Hsaved.
  { intros s w0 w' Hw0 Hs [e|s'] Hsave.
    - apply Session_save_rejected in Hsave as (Hrec & _).
      unfold capped. now rewrite Hrec.
    - apply Session_save_resolved in Hsave as (_ & Hrec & _).
      unfold capped. rewrite Hrec. apply Forall_fmap.
      eapply Forall_impl; [exact Hw0|]. intros r Hr. simpl.
      destruct (write_back_cases (document s) r) as [-> | ->]; [exact Hs | exact Hr]. }
  assert (forall t0 t1 o1,
            I t0 ->
            execNextMiddleware (middlewarePipeline bot) (budget_of bot) t0
            = Some (t1, o1) -> I t1) as Hchain.
  { intros t0 t1 o1. apply (execNextMiddleware_keeps I); unfold I; simpl.
    - intros t2 s n [Hc Ht] Hs. split; [exact Hc|]. intros s' [= <-].
      unfold get_consecutiveNotUnderstand, set_consecutiveNotUnderstand, Js.Math_min.
      simpl. lia.
    - intros t2 s w' s' [Hc Ht] Hs Hsave. split.
      + apply (Hsaved _ _ _ Hc (Ht _ Hs) _ Hsave).
      + intros s'' [= <-].
        apply Session_save_resolved in Hsave as (-> & _). apply (Ht _ Hs).
    - intros t2 s w' e [Hc Ht] Hs Hsave.
      split; [apply (Hsaved _ _ _ Hc (Ht _ Hs) _ Hsave) | exact Ht].
    - intros t2 u' Ht. exact Ht.
    - intros t2 Ht. exact Ht. }
  unfold onMessage. destruct (isMongoEnabled bot).
  - destruct (Session_findOrCreateById _ w) as [w1 [e|session]] eqn:Hfind.
    + intros [= <- _]. simpl. split; [|discriminate].
      destruct (store_rejection _ Sample.blank _ _ _
                  (or_intror (or_introl Hfind))) as [Hrec _].
      unfold capped. now rewrite Hrec.
    + assert (capped w1) as Hw1.
      { destruct (findOrCreateById_records _ _ _ _ Hfind) as [Hrec|(d & Hrec & Hd)];
          unfold capped; rewrite Hrec; [exact Hw|].
        apply Forall_app. split; [exact Hw|]. apply Forall_singleton. lia. }
      assert (get_consecutiveNotUnderstand (update_session session) <= 2)%Z as Hzero.
      { unfold get_consecutiveNotUnderstand, update_session. simpl.
        unfold Js.Math_min. lia. }
      destruct (Session_save (update_session session) w1) as [w2 [e|saved]] eqn:Hsave.
      * intros [= <- _]. simpl. split.
        -- apply (Hsaved _ _ _ Hw1 Hzero _ Hsave).
        -- intros s [= <-]. exact Hzero.
      * apply Hchain. split; simpl.
        -- apply (Hsaved _ _ _ Hw1 Hzero _ Hsave).
        -- intros s [= <-].
           apply Session_save_resolved in Hsave as (-> & _). exact Hzero.
  - apply Hchain. split; [exact Hw | discriminate].
Qed.

End WholeTurn.

Lemma turn_keeps_counters_capped_witness :
  capped Sample.twice_lost
  /\ exists t s,
       onMessage (More.remembering 9) Sample.hello Sample.twice_lost tt = Some (t, None)
       /\ ctx_session (ctx t) = Some s
       /\ get_consecutiveNotUnderstand s = 2%Z
       /\ capped (world t).
Proof.
  assert (capped Sample.twice_lost) as Hw.
  { apply Forall_singleton. simpl. lia. }
  split; [exact Hw|].
  do 2 eexists. split; [reflexivity|]. split; [reflexivity|]. split; [reflexivity|].
  apply (turn_keeps_counters_capped (More.remembering 9) Sample.hello
           Sample.twice_lost tt _ None Hw eq_refl).
Defined.


Lemma session_of_the_conversation_witness :
  exists t s,
    onMessage (More.remembering 9) Sample.hello Sample.twice_lost tt = Some (t, None)
    /\ ctx_session (ctx t) = Some s
    /\ get_conversationId s = "c1".
Proof.
  do 2 eexists. split; [reflexivity|]. split; [reflexivity|].
  apply (session_of_the_conversation (More.remembering 9) Sample.hello
           Sample.twice_lost tt _ None eq_refl _ eq_refl).
Defined.

Section OneRecord.

Context {U : Type}.
Implicit Types (t : Turn U) (bot : Chatbot U) (w : World) (u : U) (s : Session).

(** What a save does to the records, however it settles. *)
Lemma Session_save_records s w w' (r : Js.reason + Session) :
  Session_save s w = (w', r) ->
  length (records w') = length (records w)
  /\ forall i x, records w !! i = Some x -> _id x <> _id (document s) ->
                 records w' !! i = Some x.
Proof.
  destruct r as [e|s']; intros H.
  - apply Session_save_rejected in H as (-> & _). auto.
  - apply Session_save_resolved in H as (_ & -> & _).
    rewrite length_fmap. split; [reflexivity|]. intros i x Hi Hx.
    rewrite list_lookup_fmap, Hi. simpl. now rewrite write_back_other.
Qed.

(** A turn changes no record but those of its own session, and adds at most
    the one record find-or-create makes for a new conversation. *)
Theorem turn_touches_one_record bot (message : Message) w u t o :
  onMessage bot message w u = Some (t, o) ->
  length (records w) <= length (records (world t)) <= S (length (records w))
  /\ forall i r,
       records w !! i = Some r ->
       (forall s, ctx_session (ctx t) = Some s -> _id r <> _id (document s)) ->
       records (world t) !! i = Some r.
Proof.
  set (I := fun (id : nat) (rs : list ISessionDocument) (t : Turn U) =>
              length (records (world t)) = length rs
              /\ (exists s, ctx_session (ctx t) = Some s /\ _id (document s) = id)
              /\ forall i r, rs !! i = Some r -> _id r <> id ->
                             records (world t) !! i = Some r).
  assert (forall id rs t0 t1 o1,
            I id rs t0 ->
            execNextMiddleware (middlewarePipeline bot) (budget_of bot) t0
            = Some (t1, o1) -> I id rs t1) as Hchain.
  { intros id rs t0 t1 o1. apply (execNextMiddleware_keeps (I id rs)); unfold I; simpl.
    - intros t2 s n (Hlen & (s0 & Hs0 & Hid) & Hrest) Hs.
      split; [exact Hlen|]. split; [|exact Hrest].
      eexists. split; [reflexivity|]. simpl. congruence.
    - intros t2 s w' s' (Hlen & (s0 & Hs0 & Hid) & Hrest) Hs Hsave.
      assert (s0 = s) as -> by congruence.
      destruct (Session_save_records _ _ _ _ Hsave) as [Hl Hkeep].
      apply Session_save_resolved in Hsave as (-> & _).
      split; [congruence|]. split; [eauto|].
      intros i r Hi Hr. apply Hkeep; [apply (Hrest _ _ Hi Hr) | congruence].
    - intros t2 s w' e (Hlen & (s0 & Hs0 & Hid) & Hrest) Hs Hsave.
      assert (s0 = s) as -> by congruence.
      destruct (Session_save_records _ _ _ _ Hsave) as [Hl Hkeep].
      split; [congruence|]. split; [eauto|].
      intros i r Hi Hr. apply Hkeep; [apply (Hrest _ _ Hi Hr) | congruence].
    - intros t2 u' Ht. exact Ht.
    - intros t2 Ht. exact Ht. }
  assert (forall w1 id t1,
            (records w1 = records w
             \/ exists d, records w1 = records w ++ [d]
                          /\ consecutiveNotUnderstand (_doc d) = 0%Z) ->
            I id (records w1) t1 ->
            length (records w) <= length (records (world t1)) <= S (length (records w))
            /\ forall i r,
                 records w !! i = Some r ->
                 (forall s, ctx_session (ctx t1) = Some s -> _id r <> _id (document s)) ->
                 records (world t1) !! i = Some r) as Hend.
  { intros w1 id t1 Hrec (Hlen & (s & Hs & Hid) & Hrest). split.
    - rewrite Hlen. destruct Hrec as [-> | (d & -> & _)];
        [lia | rewrite length_app; simpl; lia].
    - intros i r Hi Hr. apply Hrest; [|rewrite <- Hid; apply (Hr _ Hs)].
      destruct Hrec as [-> | (d & -> & _)]; [exact Hi|].
      apply lookup_app_l_Some, Hi. }
  unfold onMessage. destruct (isMongoEnabled bot).
  - destruct (Session_findOrCreateById _ w) as [w1 [e|session]] eqn:Hfind.
    + intros [= <- _]. simpl.
      destruct (store_rejection _ Sample.blank _ _ _
                  (or_intror (or_introl Hfind))) as [-> _].
      split; [lia | auto].
    + pose proof (findOrCreateById_records _ _ _ _ Hfind) as Hrec.
      destruct (Session_save (update_session session) w1) as [w2 [e|saved]] eqn:Hsave;
        destruct (Session_save_records _ _ _ _ Hsave) as [Hl Hkeep].
      * intros [= <- _].
        apply (Hend w1 (_id (document session))); [exact Hrec|].
        split; [exact Hl|]. split; [simpl; eauto|]. simpl. exact Hkeep.
      * intros H. apply Session_save_resolved in Hsave as (-> & _).
        apply (Hend w1 (_id (document session))); [exact Hrec|].
        apply (Hchain (_id (document session)) (records w1)) in H; [exact H|].
        split; [exact Hl|]. split; [simpl; eauto|]. simpl. exact Hkeep.
  - intros H.
    destruct (execNextMiddleware_without_session _ _ (initial bot message w u) _ _
                eq_refl H) as [-> _].
    simpl. split; [lia | auto].
Qed.





End OneRecord.

Lemma turn_touches_one_record_witness :
  exists t,
    onMessage (More.remembering 9) (Build_Message "c2" "hello") Sample.twice_lost tt
    = Some (t, None)
    /\ length (records (world t)) = 2
    /\ records (world t) !! 0 = records Sample.twice_lost !! 0.
Proof.
  eexists. split; [reflexivity|]. split; [reflexivity|].
  destruct (turn_touches_one_record (More.remembering 9) (Build_Message "c2" "hello")
              Sample.twice_lost tt _ None eq_refl) as [_ Hkeep].
  apply (Hkeep 0); [reflexivity|].
  intros s [= <-]. simpl. lia.
Defined.


(** ** From one turn to the next *)

Section Snapshot.

Context {U : Type}.
Implicit Types (t : Turn U) (bot : Chatbot U) (w : World) (u : U) (s : Session).

Lemma findOrCreateById_snapshot cid w w1 session :
  Session_findOrCreateById cid w = (w1, inr session) ->
  session = new_Session (document session)
  /\ consecutiveNotUnderstand (_doc (document session))
     = default 0%Z (consecutiveNotUnderstand ∘ _doc <$> stored_first cid w).
Proof.
  intros H. split; [apply (findOrCreateById_resolved _ _ _ _ H)|]. revert H.
  unfold Session_findOrCreateById, SessionModel_findOne, then_, stored_first.
  destruct (request (OpFindOne cid) w) as [wa [e|[]]] eqn:Hr; [discriminate|].
  cbv beta iota. apply request_keeps in Hr as (-> & _).
  destruct (list_find (has_conversationId cid) (records w)) as [[i d]|]; simpl.
  - now intros [= <- <-].
  - unfold Session_create, SessionModel_create, then_, new_Date, resolve.
    cbn [conversationId].
    destruct (request (OpCreate cid) wa) as [wb [e|[]]]; [discriminate|].
    now intros [= <- <-].
Qed.

Lemma snapshot_kept bot (message : Message) w u t o :
  onMessage bot message w u = Some (t, o) ->
  forall s,
    ctx_session (ctx t) = Some s ->
    _previousNotUnderstand s
    = Js.number (default 0%Z (consecutiveNotUnderstand ∘ _doc
                                <$> stored_first (message_conversationId message) w)).
Proof.
  set (v := Js.number _).
  set (I := fun t : Turn U =>
              forall s, ctx_session (ctx t) = Some s -> _previousNotUnderstand s = v).
  assert (forall t0 t1 o1,
            I t0 ->
            execNextMiddleware (middlewarePipeline bot) (budget_of bot) t0
            = Some (t1, o1) -> I t1) as Hchain.
  { intros t0 t1 o1. apply (execNextMiddleware_keeps I); unfold I; simpl.
    - intros t2 s n Ht Hs s' [= <-]. apply (Ht _ Hs).
    - intros t2 s w' s' Ht Hs Hsave s'' [= <-].
      apply Session_save_resolved in Hsave as (-> & _). apply (Ht _ Hs).
    - intros t2 s w' e Ht _ _. exact Ht.
    - intros t2 u' Ht. exact Ht.
    - intros t2 Ht. exact Ht. }
  unfold onMessage. destruct (isMongoEnabled bot).
  - destruct (Session_findOrCreateById _ w) as [w1 [e|session]] eqn:Hfind.
    + intros [= <- _] s. discriminate.
    + destruct (findOrCreateById_snapshot _ _ _ _ Hfind) as [_ Hv].
      assert (_previousNotUnderstand (update_session session) = v) as Hprev.
      { unfold v. rewrite <- Hv. reflexivity. }
      destruct (Session_save (update_session session) w1) as [w2 [e|saved]] eqn:Hsave.
      * intros [= <- _] s [= <-]. exact Hprev.
      * apply Session_save_resolved in Hsave as (-> & _).
        apply Hchain. intros s [= <-]. exact Hprev.
  - apply Hchain. intros s. discriminate.
Qed.

(** The snapshot a turn ends with is the counter the conversation had in the
    store when the turn began (0 for a new conversation): nothing a
    middleware assigns or saves changes it. *)
Theorem snapshot_is_the_stored_counter bot (message : Message) w u t o :
  onMessage bot message w u = Some (t, o) ->
  forall s,
    ctx_session (ctx t) = Some s ->
    _previousNotUnderstand s
    = Js.number (default 0%Z (consecutiveNotUnderstand ∘ _doc
                                <$> stored_first (message_conversationId message) w)).
Proof. apply snapshot_kept. Qed.


End Snapshot.


Lemma snapshot_is_the_stored_counter_witness :
  exists t s,
    onMessage (More.remembering 1) Sample.hello Sample.twice_lost tt = Some (t, None)
    /\ ctx_session (ctx t) = Some s
    /\ _previousNotUnderstand s = Js.number 2
    /\ get_consecutiveNotUnderstand s = 1%Z.
Proof.
  do 2 eexists. split; [reflexivity|]. split; [reflexivity|]. split; [|reflexivity].
  apply (snapshot_is_the_stored_counter (More.remembering 1) Sample.hello
           Sample.twice_lost tt _ None eq_refl _ eq_refl).
Defined.


(** ** Building a bot *)

(** Persistence is enabled exactly for a bot built with a [mongo]
    descriptor, whatever the [enabled] flag of the descriptor says (a
    descriptor with [enabled: false] enables it as well), and for any bot
    after [connectToMongo]; neither touches the pipeline. *)
Theorem persistence_follows_descriptor {U} (cfg : IChatbotConfig) (d : IMongoConfig)
    (bot : Chatbot U) :
  (isMongoEnabled (new_Chatbot (U:=U) cfg) = true <-> is_Some (mongo cfg))
  /\ (forall m, mongo cfg = Some m -> enabled m = Some false ->
                isMongoEnabled (new_Chatbot (U:=U) cfg) = true)
  /\ isMongoEnabled (connectToMongo d bot) = true
  /\ middlewarePipeline (connectToMongo d bot) = middlewarePipeline bot
  /\ middlewarePipeline (new_Chatbot (U:=U) cfg) = [].
Proof.
  split; [|split; [|repeat split]].
  - unfold isMongoEnabled. simpl. destruct (mongo cfg) as [m|]; simpl.
    + split; eauto.
    + split; [discriminate | intros [m Hm]; discriminate].
  - intros m Hm _. unfold isMongoEnabled. simpl. now rewrite Hm.
Qed.

Lemma persistence_follows_descriptor_witness :
  isMongoEnabled (new_Chatbot (U:=unit) More.switched_off) = true.
Proof.
  destruct (persistence_follows_descriptor (U:=unit) More.switched_off More.local
              Sample.silent) as (_ & H & _).
  apply (H More.local); reflexivity.
Defined.

(** Chained [use] calls register the middlewares in the order of the calls,
    behind the ones already registered, duplicates included; the
    configuration is not touched. *)
Theorem registration_order {U} (ms : list (ChatbotMiddleware U)) (bot : Chatbot U) :
  middlewarePipeline (use_all ms bot) = middlewarePipeline bot ++ ms
  /\ config (use_all ms bot) = config bot
  /\ isMongoEnabled (use_all ms bot) = isMongoEnabled bot
  /\ length (middlewarePipeline (use_all ms bot))
     = length (middlewarePipeline bot) + length ms.
Proof.
  assert (middlewarePipeline (use_all ms bot) = middlewarePipeline bot ++ ms
          /\ config (use_all ms bot) = config bot) as [Hp Hc].
  { revert bot. unfold use_all.
    induction ms as [|m ms IH]; intros bot; simpl.
    - now rewrite app_nil_r.
    - destruct (IH (use m bot)) as [-> ->]. simpl.
      now rewrite <- app_assoc. }
  split; [exact Hp|]. split; [exact Hc|]. split.
  - unfold isMongoEnabled. now rewrite Hc.
  - now rewrite Hp, length_app.
Qed.

(** ** The connection string *)

(** Without a truthy user name the connection string does not depend on the
    password; and what the descriptor leaves out is written out as the text
    [undefined]: with no user, port, ssl flag and replica set it is
    [mongodb://<hostname>:undefined/<database>?ssl=undefined]. *)
Theorem connectionString_of_a_bare_descriptor (cfg : IMongoConfig) (p : option string) :
  Js.truthy (username cfg) = false ->
  connectionString (with_password p cfg) = connectionString cfg
  /\ (port cfg = None -> ssl cfg = None -> Js.truthy (replicaSetName cfg) = false ->
      connectionString cfg
      = "mongodb://" +:+ hostname cfg +:+ ":undefined/" +:+ database cfg
        +:+ "?ssl=undefined").
Proof.
  intros Hu. split.
  - unfold connectionString. simpl. now rewrite Hu.
  - intros Hp Hs Hr. unfold connectionString. rewrite Hu, Hp, Hs, Hr. reflexivity.
Qed.

Lemma connectionString_of_a_bare_descriptor_witness :
  connectionString More.local = "mongodb://localhost:undefined/jabba?ssl=undefined".
Proof.
  destruct (connectionString_of_a_bare_descriptor More.local None eq_refl) as [_ H].
  apply (H eq_refl eq_refl eq_refl).
Defined.

(** ** The text entry point, all branches *)

Section Entrypoint.

Context {U : Type}.
Implicit Types (bot : Chatbot U) (sdk : Sdk) (body : Body).

(** Whatever the body holds and whatever the SDK answers or throws, the
    callback is called once, and that call is the last thing done. *)
Theorem callback_exactly_once bot sdk body :
  let events := botHostingEntrypoint bot sdk body in
  length (filter (fun e => is_Callback e = true) events) = 1
  /\ exists err data, last events = Some (Callback err data).
Proof.
  unfold botHostingEntrypoint.
  destruct (Js.truthy (body_message body)).
  - destruct (handleMessage sdk body); simpl; eauto.
  - destruct (Js.truthy (body_text body)); [|simpl; eauto].
    destruct (converseText sdk _ _) as [err|[res|]]; simpl; eauto.
    destruct (Js.truthy (reply res)); simpl; eauto.
Qed.

(** A truthy [message] wins over [text]: the body goes to [handleMessage],
    [converseText] is not called, and the callback reports ['Bot answered :)']
    unless [handleMessage] itself throws, in which case it gets what was
    thrown. *)
Theorem message_has_priority bot sdk body :
  Js.truthy (body_message body) = true ->
  let events := botHostingEntrypoint bot sdk body in
  Forall (fun e => is_ConverseText e = false) events
  /\ events
     = [HandleMessage body;
        match handleMessage sdk body with
        | None => Callback None (Some (Result "Bot answered :)"))
        | Some err => Callback (Some err) None
        end].
Proof.
  intros Hm. unfold botHostingEntrypoint. rewrite Hm.
  destruct (handleMessage sdk body); simpl; split; try reflexivity;
    repeat constructor.
Qed.

(** The callback is called without an error exactly when the message was
    handed to [handleMessage] without a throw, or, for a body with a text and
    no message, when [converseText] resolved with a conversation. *)
Theorem answered_iff bot sdk body :
  answered (botHostingEntrypoint bot sdk body) = true
  <-> (Js.truthy (body_message body) = true /\ handleMessage sdk body = None)
      \/ (Js.truthy (body_message body) = false
          /\ Js.truthy (body_text body) = true
          /\ exists res,
               converseText sdk (default "" (body_text body)) (requestToken (config bot))
               = inr (Some res)).
Proof.
  unfold botHostingEntrypoint, answered.
  destruct (Js.truthy (body_message body)).
  - destruct (handleMessage sdk body) as [err|]; simpl; split; auto.
    + discriminate.
    + intros [[_ H]|[H _]]; discriminate.
  - destruct (Js.truthy (body_text body)).
    + destruct (converseText sdk _ _) as [err|[res|]]; simpl.
      * split; [discriminate | intros [[H _]|(_ & _ & res & H)]; discriminate].
      * destruct (Js.truthy (reply res)); simpl; split; eauto.
      * split; [discriminate | intros [[H _]|(_ & _ & res & H)]; discriminate].
    + simpl. split; [discriminate | intros [[H _]|(_ & H & _)]; discriminate].
Qed.

(** A conversation without a usable reply (none, or an empty one) is not an
    error: the callback gets ['No reply :('] with the token of the
    conversation, and the SDK was asked with the request token of the bot. *)
Theorem no_reply_is_not_an_error bot sdk body (res : Conversation) :
  Js.truthy (body_message body) = false ->
  Js.truthy (body_text body) = true ->
  converseText sdk (default "" (body_text body)) (requestToken (config bot))
  = inr (Some res) ->
  Js.truthy (reply res) = false ->
  botHostingEntrypoint bot sdk body
  = [ConverseText (default "" (body_text body)) (requestToken (config bot));
     Callback None (Some (Reply "No reply :(" (conversationToken res)))].
Proof.
  intros Hm Ht Hc Hr. unfold botHostingEntrypoint. now rewrite Hm, Ht, Hc, Hr.
Qed.

End Entrypoint.

Lemma message_has_priority_witness :
  botHostingEntrypoint Sample.silent Sample.quiet_sdk More.both_body
  = [HandleMessage More.both_body; Callback None (Some (Result "Bot answered :)"))].
Proof.
  destruct (message_has_priority Sample.silent Sample.quiet_sdk More.both_body eq_refl)
    as [_ H].
  exact H.
Defined.

Lemma answered_iff_witness :
  answered (botHostingEntrypoint Sample.silent Sample.quiet_sdk More.text_body) = true.
Proof.
  apply (answered_iff Sample.silent Sample.quiet_sdk More.text_body).
  right. split; [reflexivity|]. split; [reflexivity|]. eexists. reflexivity.
Defined.

Lemma no_reply_is_not_an_error_witness :
  botHostingEntrypoint Sample.silent More.mute_sdk More.text_body
  = [ConverseText "hi" "request-token";
     Callback None (Some (Reply "No reply :(" "request-token"))].
Proof.
  apply (no_reply_is_not_an_error Sample.silent More.mute_sdk More.text_body
           {| reply := None; conversationToken := "request-token" |});
    reflexivity.
Defined.

(** ** A rejection inside the chain *)

Section Rejection.

Context {U : Type}.
Implicit Types (t : Turn U) (m : ChatbotMiddleware U) (bot : Chatbot U).





End Rejection.

